(** * Axis: the account-linking web service of ChomusukeBot

    A shallow embedding of [axis.py] and the properties of its three HTTP
    handlers [home], [github] and [github_callback].

    What is modelled, and how:
    - a Python [str] is the list of its Unicode code points;
    - [os.environ], [request.cookies], [request.args] and the result of
      [parse_qs] are finite maps keyed by strings;
    - the MongoDB collection [COLLECTION] is the list of its documents, in
      insertion order, threaded through the handlers as state together
      with a log of the operations issued against it;
    - a Python exception that escapes a handler is an error value of the
      handler's result;
    - the two outbound requests are answered by an oracle ([Client]) that the
      handlers take as an argument.

    Left out: transport failures of the HTTP client, the limits of the
    database driver's wire encoding, JSON numbers that decode to floats,
    and the bound that recent interpreters put on the number of digits
    [int] accepts. *)

From Stdlib Require Import ZArith NArith List String Ascii Decimal DecimalString Lia.
From stdpp Require Import base option list gmap.

Local Open Scope Z_scope.
Set Warnings "-register-all".

(** ** Strings *)

Definition codepoint := N.
Abbreviation str := (list codepoint).

(** A string literal of the source, all of whose characters are ASCII. *)
Definition py (s : string) : str := N_of_ascii <$> list_ascii_of_string s.

(** The Unicode character database, as far as [str.isnumeric], [int] and
    [repr] consult it.  The handlers are defined for an arbitrary database;
    [latin1] below is the one of the first 256 code points. *)
Class Unicode := {
  (** [Py_UNICODE_ISNUMERIC]: the character has a numeric value *)
  numeric : codepoint → bool;
  (** [Py_UNICODE_TODECIMAL]: the value of a decimal digit *)
  decimal : codepoint → option N;
  (** [Py_UNICODE_ISSPACE] *)
  space : codepoint → bool;
  (** [Py_UNICODE_ISPRINTABLE] *)
  printable : codepoint → bool
}.

Definition between (lo hi c : N) : bool := ((lo <=? c) && (c <=? hi))%N.

(** The properties of U+0000 .. U+00FF.  Code points above U+00FF are outside
    its domain and are given no property. *)
Definition latin1 : Unicode := {|
  numeric c :=
    between 48 57 c || bool_decide (c ∈ [178; 179; 185; 188; 189; 190]%N);
  decimal c := if between 48 57 c then Some (c - 48)%N else None;
  space c :=
    between 9 13 c || between 28 32 c || bool_decide (c ∈ [133; 160]%N);
  printable c :=
    between 32 126 c || (between 161 255 c && negb (c =? 173)%N)
|}.

Section Builtins.
Context {U : Unicode}.

(** [str.isnumeric]: true when the string is not empty and every character
    is numeric. *)
Definition isnumeric (s : str) : bool :=
  match s with
  | [] => false
  | _ => forallb numeric s
  end.

(** [int(s)] for a string, base 10.  CPython first maps the string to
    ASCII ([_PyUnicode_TransformDecimalAndSpaceToASCII]): a character below
    127 stands for itself, a space becomes [' '], a decimal digit becomes
    the ASCII digit of its value, and anything else makes the conversion
    fail. *)
Definition to_ascii (c : codepoint) : option N :=
  if (c <? 127)%N then Some c
  else if space c then Some 32%N
  else (λ d, 48 + d)%N <$> decimal c.

(** [Py_ISSPACE] *)
Definition c_isspace (c : N) : bool := between 9 13 c || (c =? 32)%N.

Definition c_isdigit (c : N) : bool := between 48 57 c.

Definition underscore : N := 95.

(** The digits of [PyLong_FromString]: a run of digits and underscores
    that neither starts nor ends with an underscore and has no two
    underscores in a row. *)
Fixpoint well_grouped (prev : N) (run : list N) : bool :=
  match run with
  | [] => negb (prev =? underscore)%N
  | c :: run' =>
      negb ((c =? underscore) && (prev =? underscore))%N
      && well_grouped c run'
  end.

Definition digits_value (run : list N) : Z :=
  fold_left (λ acc c, if c_isdigit c then 10 * acc + Z.of_N (c - 48) else acc)
            run 0.

Fixpoint span {A} (p : A → bool) (l : list A) : list A * list A :=
  match l with
  | [] => ([], [])
  | x :: l' =>
      if p x then let '(a, b) := span p l' in (x :: a, b) else ([], l)
  end.

Fixpoint drop_while {A} (p : A → bool) (l : list A) : list A :=
  match l with
  | [] => []
  | x :: l' => if p x then drop_while p l' else l
  end.

Definition long_from_string (s : list N) : option Z :=
  let s := drop_while c_isspace s in
  let '(sign, s) :=
    match s with
    | c :: r =>
        if (c =? 43)%N then (1, r)
        else if (c =? 45)%N then (-1, r)
        else (1, s)
    | [] => (1, s)
    end in
  let '(run, rest) := span (λ c, c_isdigit c || (c =? underscore)%N) s in
  if existsb c_isdigit run && well_grouped underscore run
     && forallb c_isspace rest
  then Some (sign * digits_value run)
  else None.

Definition int (s : str) : option Z :=
  mapM to_ascii s ≫= long_from_string.
End Builtins.

(** ** Decoded JSON and [repr] *)

(** The Python value of a decoded JSON text.  A [dict] lists its items in
    insertion order. *)
Inductive value :=
  | VNone
  | VBool (b : bool)
  | VInt (n : Z)
  | VStr (s : str)
  | VList (l : list value)
  | VDict (d : list (str * value)).

Definition str_eqb (a b : str) : bool := bool_decide (a = b).

Fixpoint assoc {A} (k : str) (d : list (str * A)) : option A :=
  match d with
  | [] => None
  | (k', v) :: d' => if str_eqb k k' then Some v else assoc k d'
  end.

Definition hex_digit (n : N) : codepoint :=
  if (n <? 10)%N then (48 + n)%N else (87 + n)%N.

(** [width] lower-case hexadecimal digits of [c], most significant first *)
Fixpoint hex (width : nat) (c : N) : str :=
  match width with
  | O => []
  | S w => hex w (c / 16)%N ++ [hex_digit (c mod 16)%N]
  end.

Fixpoint join (sep : str) (parts : list str) : str :=
  match parts with
  | [] => []
  | [p] => p
  | p :: ps => p ++ sep ++ join sep ps
  end.

Definition int_to_str (n : Z) : str :=
  py (NilEmpty.string_of_int (Z.to_int n)).

Section Repr.
Context {U : Unicode}.

Definition backslash : codepoint := 92%N.

Definition repr_char (quote c : codepoint) : str :=
  if ((c =? quote) || (c =? backslash))%N then [backslash; c]
  else if (c =? 9)%N then backslash :: py "t"
  else if (c =? 10)%N then backslash :: py "n"
  else if (c =? 13)%N then backslash :: py "r"
  else if ((c <? 32) || (c =? 127))%N then backslash :: py "x" ++ hex 2 c
  else if (c <? 127)%N then [c]
  else if printable c then [c]
  else if (c <=? 255)%N then backslash :: py "x" ++ hex 2 c
  else if (c <=? 65535)%N then backslash :: py "u" ++ hex 4 c
  else backslash :: py "U" ++ hex 8 c.

(** [repr] of a [str]: double quotes when the text has a single quote and
    no double quote, single quotes otherwise *)
Definition repr_str (s : str) : str :=
  let quote : codepoint :=
    if existsb (N.eqb 39) s && negb (existsb (N.eqb 34) s) then 34%N
    else 39%N in
  quote :: concat (repr_char quote <$> s) ++ [quote].

Fixpoint repr (v : value) : str :=
  match v with
  | VNone => py "None"
  | VBool true => py "True"
  | VBool false => py "False"
  | VInt n => int_to_str n
  | VStr s => repr_str s
  | VList l => py "[" ++ join (py ", ") (map repr l) ++ py "]"
  | VDict d =>
      py "{"
      ++ join (py ", ")
           (map (λ kv, repr_str (fst kv) ++ py ": " ++ repr (snd kv)) d)
      ++ py "}"
  end.

(** [str(v)], which is what [str.format] puts in place of [{0}] *)
Definition str_of (v : value) : str :=
  match v with
  | VStr s => s
  | _ => repr v
  end.
End Repr.

(** ** [urllib.parse.parse_qs] *)

Definition hex_value (c : codepoint) : option N :=
  if between 48 57 c then Some (c - 48)%N
  else if between 65 70 c then Some (c - 55)%N
  else if between 97 102 c then Some (c - 87)%N
  else None.

(** What [unquote] has to decode: a character that is not ASCII stands for
    itself ([inl]); an ASCII character or a [%XX] escape is a byte of UTF-8
    ([inr]). *)
Fixpoint unquote_to_bytes (s : str) : list (codepoint + N) :=
  match s with
  | [] => []
  | c :: r =>
      let keep :=
        (if (c <? 128)%N then inr c else inl c) :: unquote_to_bytes r in
      if (c =? 37)%N then
        match r with
        | h :: l :: r' =>
            match hex_value h, hex_value l with
            | Some a, Some b => inr (16 * a + b)%N :: unquote_to_bytes r'
            | _, _ => keep
            end
        | _ => keep
        end
      else keep
  end.

(** The UTF-8 decoder with [errors='replace']: every maximal ill-formed
    run of bytes becomes U+FFFD. *)
Inductive utf8_state :=
  | Idle
  | Pending (acc : N) (more : nat) (lo hi : N).

Definition replacement : codepoint := 65533%N.

Definition utf8_start (b : N) : list codepoint * utf8_state :=
  if (b <? 128)%N then ([b], Idle)
  else if (b <? 194)%N then ([replacement], Idle)
  else if (b <? 224)%N then ([], Pending (b - 192) 0 128 191)
  else if (b =? 224)%N then ([], Pending 0 1 160 191)
  else if (b =? 237)%N then ([], Pending 13 1 128 159)
  else if (b <? 240)%N then ([], Pending (b - 224) 1 128 191)
  else if (b =? 240)%N then ([], Pending 0 2 144 191)
  else if (b <? 244)%N then ([], Pending (b - 240) 2 128 191)
  else if (b =? 244)%N then ([], Pending 4 2 128 143)
  else ([replacement], Idle).

Definition utf8_step (st : utf8_state) (item : codepoint + N)
  : list codepoint * utf8_state :=
  match st, item with
  | Idle, inl c => ([c], Idle)
  | Idle, inr b => utf8_start b
  | Pending _ _ _ _, inl c => ([replacement; c], Idle)
  | Pending acc more lo hi, inr b =>
      if between lo hi b then
        let acc := (64 * acc + (b - 128))%N in
        match more with
        | O => ([acc], Idle)
        | S more => ([], Pending acc more 128 191)
        end
      else
        let '(out, st) := utf8_start b in (replacement :: out, st)
  end.

Fixpoint utf8_decode (st : utf8_state) (items : list (codepoint + N)) : str :=
  match items with
  | [] => match st with Idle => [] | Pending _ _ _ _ => [replacement] end
  | item :: items =>
      let '(out, st) := utf8_step st item in out ++ utf8_decode st items
  end.

Definition unquote (s : str) : str := utf8_decode Idle (unquote_to_bytes s).

(** [s.split(sep)] *)
Fixpoint split (sep : codepoint) (s : str) : list str :=
  match s with
  | [] => [[]]
  | c :: r =>
      if (c =? sep)%N then [] :: split sep r
      else match split sep r with
           | h :: t => (c :: h) :: t
           | [] => [[c]]
           end
  end.

(** [s.split('=', 1)] when it has two parts *)
Fixpoint split_equals (s : str) : option (str * str) :=
  match s with
  | [] => None
  | c :: r =>
      if (c =? 61)%N then Some ([], r)
      else (λ nv, (c :: fst nv, snd nv)) <$> split_equals r
  end.

Definition plus_to_space (s : str) : str :=
  (λ c, if (c =? 43)%N then 32%N else c) <$> s.

(** [parse_qsl] with its default arguments: the fields are separated by
    [&] (interpreters older than 3.9.2 split them at [;] as well); a field
    without [=] or with an empty value is dropped. *)
Definition parse_qsl (qs : str) : list (str * str) :=
  omap (λ name_value,
          match split_equals name_value with
          | Some (name, val) =>
              match val with
              | [] => None
              | _ => Some (unquote (plus_to_space name),
                           unquote (plus_to_space val))
              end
          | None => None
          end)
       (split 38%N qs).

(** The values of one name in a query string: the first one and the
    others.  Neither [parse_qs] nor [request.args] holds an empty list. *)
Abbreviation values := (str * list str)%type.

Definition first (v : values) : str := fst v.

Definition parse_qs (qs : str) : gmap str values :=
  foldl (λ parsed_result nv,
           let '(name, val) := nv in
           match parsed_result !! name with
           | Some (v, vs) => <[name := (v, vs ++ [val])]> parsed_result
           | None => <[name := (val, [])]> parsed_result
           end)
        ∅ (parse_qsl qs).

(** ** Exceptions and the handlers' monad *)

Inductive exception :=
  | KeyError (key : str)
  | ValueError
  | TypeError
  | DuplicateKeyError
  | ContentTypeError.

Abbreviation result A := (exception + A)%type.

(** ** The document store *)

(** A document of the [users] collection: its key, the platform user id,
    and its other fields. *)
Record document := { _id : Z; fields : gmap str value }.

Inductive operation :=
  | FindOne (id : Z)
  | UpdateOne (id : Z)
  | InsertOne (id : Z).

(** [COLLECTION]: the documents it holds and the operations it has served *)
Record Collection := {
  documents : list document;
  operations : list operation
}.

Definition served (op : operation) (c : Collection) : Collection :=
  {| documents := documents c; operations := operations c ++ [op] |}.

(** A coroutine of the service: it runs against the collection and either
    returns or raises. *)
Definition io (A : Type) : Type := Collection → result A * Collection.

#[export] Instance io_ret : MRet io := λ A x c, (inr x, c).

#[export] Instance io_bind : MBind io := λ A B f m c,
  match m c with
  | (inr x, c') => f x c'
  | (inl e, c') => (inl e, c')
  end.

Definition raise {A} (e : exception) : io A := λ c, (inl e, c).

(** The outcome of awaiting an operation of a library *)
Definition await {A} (r : result A) : io A := λ c, (r, c).

Definition or_raise {A} (e : exception) (o : option A) : io A :=
  match o with
  | Some x => mret x
  | None => raise e
  end.

(** [k in d] and [d[k]] *)
Definition contains {A} (d : gmap str A) (k : str) : bool :=
  match d !! k with Some _ => true | None => false end.

Definition getitem {A} (d : gmap str A) (k : str) : io A :=
  match d !! k with
  | Some v => mret v
  | None => raise (KeyError k)
  end.

(** [v[k]] for a decoded JSON value [v] *)
Definition subscript (v : value) (k : str) : io value :=
  match v with
  | VDict d =>
      match assoc k d with
      | Some x => mret x
      | None => raise (KeyError k)
      end
  | _ => raise TypeError
  end.

Definition has_id (id : Z) (d : document) : bool := _id d =? id.

(** [find_one({"_id": id})] *)
Definition find_one (id : Z) : io (option document) := λ c,
  (inr (find (has_id id) (documents c)), served (FindOne id) c).

Fixpoint set_first (id : Z) (k : str) (v : value) (docs : list document)
  : list document :=
  match docs with
  | [] => []
  | d :: docs' =>
      if has_id id d
      then {| _id := _id d; fields := <[k := v]> (fields d) |} :: docs'
      else d :: set_first id k v docs'
  end.

(** [update_one({"_id": id}, {"$set": {k: v}})] *)
Definition update_one (id : Z) (k : str) (v : value) : io unit := λ c,
  (inr (), served (UpdateOne id)
             {| documents := set_first id k v (documents c);
                operations := operations c |}).

(** [insert_one(d)]; the collection's index on [_id] refuses a second
    document with the same key. *)
Definition insert_one (d : document) : io unit := λ c,
  if existsb (has_id (_id d)) (documents c)
  then (inl DuplicateKeyError, served (InsertOne (_id d)) c)
  else (inr (), served (InsertOne (_id d))
                  {| documents := documents c ++ [d];
                     operations := operations c |}).

(** ** Requests and responses *)

Module sanic.
Record Request := {
  url : str;
  args : gmap str values;
  cookies : gmap str str
}.

(** [location] is the target handed to [sanic.response.redirect]. *)
Record HTTPResponse := {
  status : Z;
  body : str;
  location : option str;
  set_cookies : gmap str str
}.

Definition text (body : str) (status : Z) : HTTPResponse :=
  {| status := status; body := body; location := None; set_cookies := ∅ |}.

Definition redirect (to : str) (status : Z) : HTTPResponse :=
  {| status := status; body := []; location := Some to; set_cookies := ∅ |}.

(** [response.cookies[k] = v] *)
Definition set_cookie (k v : str) (response : HTTPResponse) : HTTPResponse :=
  {| status := status response; body := body response;
     location := location response;
     set_cookies := <[k := v]> (set_cookies response) |}.
End sanic.

Module aiohttp.
(** The answer to an outbound GET: [resp.status], [await resp.text()] and
    [await resp.json()]. *)
Record ClientResponse := {
  status : Z;
  text : str;
  json : result value
}.

(** [client.get(url, headers=headers)] *)
Definition Client := str → list (str * str) → ClientResponse.
End aiohttp.

(** ** The service *)

Definition AUTH_GITHUB (client_id redirect_uri : str) : str :=
  py "https://github.com/login/oauth/authorize?client_id=" ++ client_id
  ++ py "&redirect_uri=" ++ redirect_uri.

Definition CODE_GITHUB (client_id client_secret code : str) : str :=
  py "https://github.com/login/oauth/access_token?client_id=" ++ client_id
  ++ py "&client_secret=" ++ client_secret ++ py "&code=" ++ code.

Definition USER_GITHUB : str := py "https://api.github.com/user".

Inductive endpoint := Root | Github | GithubCallback.

Section Service.
Context {U : Unicode}.
(** [os.environ] *)
Variable environ : gmap str str.
(** [tools.parse_url], a module of the repository that is not at hand *)
Variable parse_url : str → str.
(** the identity provider, as seen through [aiohttp.ClientSession.get] *)
Variable get : aiohttp.Client.

Definition home (request : sanic.Request) : io sanic.HTTPResponse :=
  mret (sanic.redirect (py "https://github.com/ChomusukeBot") 302).

Definition github (request : sanic.Request) : io sanic.HTTPResponse :=
  if negb (contains environ (py "GITHUB_CLIENT"))
     || negb (contains environ (py "GITHUB_SECRET"))
  then mret (sanic.text (py "GitHub is not supported at this time.") 503)
  else if negb (contains (sanic.args request) (py "id"))
  then mret (sanic.text (py "The Discord ID was not specified") 400)
  else
    let callback := parse_url (sanic.url request) ++ py "/github/callback" in
    client_id ← getitem environ (py "GITHUB_CLIENT");
    let redirect := AUTH_GITHUB client_id callback in
    let response := sanic.redirect redirect 301 in
    id ← getitem (sanic.args request) (py "id");
    mret (sanic.set_cookie (py "id") (first id) response).

Definition github_callback (request : sanic.Request)
  : io sanic.HTTPResponse :=
  if negb (contains environ (py "GITHUB_CLIENT"))
     || negb (contains environ (py "GITHUB_SECRET"))
  then mret (sanic.text (py "GitHub is not supported at this time.") 503)
  else if negb (contains (sanic.cookies request) (py "id"))
  then mret (sanic.text (py "No Discord ID present on cookies.") 400)
  else
    cookie ← getitem (sanic.cookies request) (py "id");
    if negb (isnumeric cookie)
    then mret (sanic.text (py "The Discord ID is not numeric.") 400)
    else if negb (contains (sanic.args request) (py "code"))
    then mret (sanic.text (py "There is no GitHub code.") 400)
    else
      client_id ← getitem environ (py "GITHUB_CLIENT");
      client_secret ← getitem environ (py "GITHUB_SECRET");
      code ← getitem (sanic.args request) (py "code");
      let url := CODE_GITHUB client_id client_secret (first code) in
      let resp := get url [] in
      let params := parse_qs (aiohttp.text resp) in
      if contains params (py "error")
      then
        description ← getitem params (py "error_description");
        mret (sanic.text (first description) 400)
      else
        access_token ← getitem params (py "access_token");
        let headers :=
          [(py "Authorization", py "token " ++ first access_token);
           (py "User-Agent",
            py "Chomusuke (+https://github.com/ChomusukeBot)")] in
        let resp := get USER_GITHUB headers in
        if negb (aiohttp.status resp =? 200)
        then mret (sanic.text
                     (py "An error has ocurred while fetching your data.")
                     (aiohttp.status resp))
        else
          json ← await (aiohttp.json resp);
          cookie ← getitem (sanic.cookies request) (py "id");
          id ← or_raise ValueError (int cookie);
          found ← find_one id;
          (* a document is never an empty [dict]: [if found] asks
             whether there is one *)
          match found with
          | Some _ =>
              login ← subscript json (py "login");
              update_one id (py "github") login
          | None =>
              login ← subscript json (py "login");
              insert_one
                {| _id := id; fields := {[ py "github" := login ]} |}
          end;;
          login ← subscript json (py "login");
          mret (sanic.text
                  (py "Done! The GitHub account " ++ str_of login
                   ++ py " is now linked with Discord.")
                  200).

(** The routes registered on [APP] *)
Definition route (e : endpoint) : sanic.Request → io sanic.HTTPResponse :=
  match e with
  | Root => home
  | Github => github
  | GithubCallback => github_callback
  end.
End Service.

(** Both OAuth client credentials are in the environment. *)
Definition configured (environ : gmap str str) : bool :=
  contains environ (py "GITHUB_CLIENT") && contains environ (py "GITHUB_SECRET").

(** The service answering requests one after the other, each with the
    provider as it is at that time *)
Definition serve {U : Unicode} (environ : gmap str str) (parse_url : str → str)
    (calls : list (endpoint * aiohttp.Client * sanic.Request))
    (c : Collection) : Collection :=
  foldl (λ c call,
           let '(e, get, request) := call in
           snd (route environ parse_url get e request c))
        c calls.

(** The answer to a callback that linked the account [login] *)
Definition done_response {U : Unicode} (login : value) : sanic.HTTPResponse :=
  sanic.text
    (py "Done! The GitHub account " ++ str_of login
     ++ py " is now linked with Discord.") 200.


(** The request passes the four checks and the provider plays its part:
    the exchange yields a token, the profile is answered 200 with a JSON
    object that has the [login], and the cookie converts to [id]. *)
Definition links {U : Unicode} (environ : gmap str str) (get : aiohttp.Client)
    (request : sanic.Request) (id : Z) (login : value) : Prop :=
  ∃ client_id client_secret cookie code access_token profile,
    environ !! py "GITHUB_CLIENT" = Some client_id
    ∧ environ !! py "GITHUB_SECRET" = Some client_secret
    ∧ sanic.cookies request !! py "id" = Some cookie
    ∧ isnumeric cookie = true
    ∧ sanic.args request !! py "code" = Some code
    ∧ parse_qs
        (aiohttp.text
           (get (CODE_GITHUB client_id client_secret (first code)) []))
      !! py "error" = None
    ∧ parse_qs
        (aiohttp.text
           (get (CODE_GITHUB client_id client_secret (first code)) []))
      !! py "access_token" = Some access_token
    ∧ aiohttp.status
        (get USER_GITHUB
           [(py "Authorization", py "token " ++ first access_token);
            (py "User-Agent",
             py "Chomusuke (+https://github.com/ChomusukeBot)")]) = 200
    ∧ aiohttp.json
        (get USER_GITHUB
           [(py "Authorization", py "token " ++ first access_token);
            (py "User-Agent",
             py "Chomusuke (+https://github.com/ChomusukeBot)")])
      = inr (VDict profile)
    ∧ assoc (py "login") profile = Some login
    ∧ int cookie = Some id.

(** ** Sample requests *)

Definition credentials : gmap str str :=
  {[ py "GITHUB_CLIENT" := py "Iv1.8a61f9b3a7aba766";
     py "GITHUB_SECRET" := py "secret" ]}.

(** A request to [/github/callback?code=c0de] with the cookie [id] *)
Definition callback_request (id : str) : sanic.Request :=
  {| sanic.url := py "https://axis.example/github/callback?code=c0de";
     sanic.args := {[ py "code" := (py "c0de", []) ]};
     sanic.cookies := {[ py "id" := id ]} |}.

(** A callback with the same cookie [id] and first [code], and more *)
Definition callback_request_with_more (id : str) : sanic.Request :=
  {| sanic.url := py "https://axis.example/github/callback?code=c0de&code=x&state=1";
     sanic.args := {[ py "code" := (py "c0de", [py "x"]);
                      py "state" := (py "1", []) ]};
     sanic.cookies := {[ py "id" := id; py "theme" := py "dark" ]} |}.

(** The same without the [code] *)
Definition callback_request_without_code (id : str) : sanic.Request :=
  {| sanic.url := py "https://axis.example/github/callback";
     sanic.args := ∅;
     sanic.cookies := {[ py "id" := id ]} |}.

(** A request to [/github?id=...] *)
Definition github_request (id : str) : sanic.Request :=
  {| sanic.url := py "https://axis.example/github?id=" ++ id;
     sanic.args := {[ py "id" := (id, []) ]};
     sanic.cookies := ∅ |}.

(** A provider that answers the token exchange with the text [exchange]
    and the profile request with [profile_status] and [profile] *)
Definition provider (exchange : str) (profile_status : Z)
    (profile : result value) : aiohttp.Client := λ url headers,
  if str_eqb url USER_GITHUB
  then {| aiohttp.status := profile_status;
          aiohttp.text := [];
          aiohttp.json := profile |}
  else {| aiohttp.status := 200;
          aiohttp.text := exchange;
          aiohttp.json := inl ContentTypeError |}.

(** GitHub granting a token and knowing the user as [login] *)
Definition github_knows (login : str) : aiohttp.Client :=
  provider (py "access_token=gho_16C7e42F292c6912E7&scope=&token_type=bearer")
           200 (inr (VDict [(py "login", VStr login); (py "id", VInt 583231)])).

(** GitHub turning the exchange down with the text [exchange] *)
Definition github_refuses (exchange : str) : aiohttp.Client :=
  provider exchange 401 (inl ContentTypeError).

(** GitHub granting a token and then answering the profile request with
    [status] *)
Definition github_fails (status : Z) : aiohttp.Client :=
  provider (py "access_token=gho_16C7e42F292c6912E7&scope=&token_type=bearer")
           status (inl ContentTypeError).

(** What [tools.parse_url] is taken to return for the sample requests *)
Definition base_url (url : str) : str := py "https://axis.example".

Definition empty_collection : Collection :=
  {| documents := []; operations := [] |}.

(** The collection once user 123 has linked the account [octocat] *)
Definition octocat_linked : Collection :=
  {| documents :=
       [{| _id := 123; fields := {[ py "github" := VStr (py "octocat") ]} |}];
     operations := [FindOne 123; InsertOne 123] |}.

(** and once the same user has linked [octocat2] instead *)
Definition octocat2_linked : Collection :=
  {| documents :=
       [{| _id := 123; fields := {[ py "github" := VStr (py "octocat2") ]} |}];
     operations := [FindOne 123; InsertOne 123; FindOne 123; UpdateOne 123] |}.

(** A collection whose documents have fields of other writers *)
Definition stored : Collection :=
  {| documents :=
       [{| _id := 7; fields := {[ py "github" := VStr (py "hubot") ]} |};
        {| _id := 123;
           fields := {[ py "github" := VStr (py "octocat");
                        py "prefix" := VStr (py "!") ]} |}];
     operations := [] |}.

Definition stored_relinked : Collection :=
  {| documents :=
       [{| _id := 7; fields := {[ py "github" := VStr (py "hubot") ]} |};
        {| _id := 123;
           fields := {[ py "github" := VStr (py "octocat2");
                        py "prefix" := VStr (py "!") ]} |}];
     operations := [FindOne 123; UpdateOne 123] |}.

(** * Properties *)

Arguments py : simpl never.

(** ** The guard and the conversion *)

Section Digits.
Context {U : Unicode}.





End Digits.

(** ** The store *)

Lemma has_id_true id d : has_id id d = true ↔ _id d = id.
Proof. unfold has_id. apply Z.eqb_eq. Qed.



(** Updating the first document keyed by [id] rewrites one position of the
    collection. *)
Lemma find_has_id_Some id docs d :
  find (has_id id) docs = Some d →
  ∃ i, docs !! i = Some d ∧ _id d = id
       ∧ ∀ k v, set_first id k v docs
                = <[i := {| _id := id; fields := <[k := v]> (fields d) |}]> docs.
Proof.
  induction docs as [|d0 docs IH]; simpl; [done |].
  destruct (has_id id d0) eqn:Hd.
  - intros [= ->]. apply has_id_true in Hd. exists 0%nat.
    repeat split; [done |]. intros k v. by rewrite Hd.
  - intros (i & Hi & Hid & Hset)%IH. exists (S i).
    repeat split; [done.. |]. intros k v. simpl. by rewrite Hset.
Qed.

Lemma find_existsb_has_id id docs :
  find (has_id id) docs = None → existsb (has_id id) docs = false.
Proof.
  induction docs as [|d docs IH]; simpl; [done |].
  destruct (has_id id d); [done | auto].
Qed.

Lemma set_first_ids id k v docs : _id <$> set_first id k v docs = _id <$> docs.
Proof.
  induction docs as [|d docs IH]; [done |]. cbn [set_first].
  destruct (has_id id d); rewrite !fmap_cons; [done | by rewrite IH].
Qed.



(** ** The monad *)

Lemma contains_Some {A : Type} (d : gmap str A) k v :
  d !! k = Some v → contains d k = true.
Proof. unfold contains. by intros ->. Qed.

Lemma contains_None {A : Type} (d : gmap str A) k :
  d !! k = None → contains d k = false.
Proof. unfold contains. by intros ->. Qed.

Lemma configured_inv environ :
  configured environ = true →
  ∃ client_id client_secret,
    environ !! py "GITHUB_CLIENT" = Some client_id
    ∧ environ !! py "GITHUB_SECRET" = Some client_secret.
Proof.
  unfold configured, contains.
  destruct (environ !! py "GITHUB_CLIENT"), (environ !! py "GITHUB_SECRET");
    simpl; try discriminate; eauto.
Qed.

Lemma unconfigured_guard environ :
  configured environ = false →
  negb (contains environ (py "GITHUB_CLIENT"))
  || negb (contains environ (py "GITHUB_SECRET")) = true.
Proof.
  unfold configured.
  destruct (contains environ (py "GITHUB_CLIENT")),
           (contains environ (py "GITHUB_SECRET")); simpl; congruence.
Qed.

Lemma bind_unfold {A B : Type} (m : io A) (f : A → io B) c :
  (m ≫= f) c =
  match m c with
  | (inr x, c') => f x c'
  | (inl e, c') => (inl e, c')
  end.
Proof. reflexivity. Qed.

Lemma bind_assoc {A B C : Type} (m : io A) (f : A → io B) (g : B → io C) c :
  ((m ≫= f) ≫= g) c = (m ≫= λ x, f x ≫= g) c.
Proof. rewrite !bind_unfold. by destruct (m c) as [[e|x] c']. Qed.

Lemma getitem_Some {A B : Type} (d : gmap str A) k v (f : A → io B) c :
  d !! k = Some v → (getitem d k ≫= f) c = f v c.
Proof. intros H. rewrite bind_unfold. unfold getitem. by rewrite H. Qed.

Lemma getitem_None {A B : Type} (d : gmap str A) k (f : A → io B) c :
  d !! k = None → (getitem d k ≫= f) c = (inl (KeyError k), c).
Proof. intros H. rewrite bind_unfold. unfold getitem. by rewrite H. Qed.

Lemma await_inr {A B : Type} (r : result A) v (f : A → io B) c :
  r = inr v → (await r ≫= f) c = f v c.
Proof. by intros ->. Qed.

Lemma await_inl {A B : Type} (r : result A) e (f : A → io B) c :
  r = inl e → (await r ≫= f) c = (inl e, c).
Proof. by intros ->. Qed.

Lemma or_raise_Some {A B : Type} e (o : option A) x (f : A → io B) c :
  o = Some x → (or_raise e o ≫= f) c = f x c.
Proof. by intros ->. Qed.

Lemma or_raise_None {A B : Type} e (o : option A) (f : A → io B) c :
  o = None → (or_raise e o ≫= f) c = (inl e, c).
Proof. by intros ->. Qed.

Lemma find_one_bind {B : Type} id (f : option document → io B) c :
  (find_one id ≫= f) c = f (find (has_id id) (documents c)) (served (FindOne id) c).
Proof. reflexivity. Qed.

Lemma update_one_bind {B : Type} id k v (f : unit → io B) c :
  (update_one id k v ≫= f) c
  = f () (served (UpdateOne id)
            {| documents := set_first id k v (documents c);
               operations := operations c |}).
Proof. reflexivity. Qed.

Lemma insert_one_bind {B : Type} d (f : unit → io B) c :
  find (has_id (_id d)) (documents c) = None →
  (insert_one d ≫= f) c
  = f () (served (InsertOne (_id d))
            {| documents := documents c ++ [d]; operations := operations c |}).
Proof.
  intros H%find_existsb_has_id. rewrite bind_unfold. unfold insert_one.
  by rewrite H.
Qed.

Lemma subscript_Some {B : Type} d k x (f : value → io B) c :
  assoc k d = Some x → (subscript (VDict d) k ≫= f) c = f x c.
Proof. intros H. rewrite bind_unfold. simpl. by rewrite H. Qed.

Lemma subscript_None {B : Type} d k (f : value → io B) c :
  assoc k d = None → (subscript (VDict d) k ≫= f) c = (inl (KeyError k), c).
Proof. intros H. rewrite bind_unfold. simpl. by rewrite H. Qed.

Lemma subscript_TypeError {B : Type} v k (f : value → io B) c :
  (∀ d, v ≠ VDict d) → (subscript v k ≫= f) c = (inl TypeError, c).
Proof. intros H. destruct v; try done. by destruct (H d). Qed.

(** Runs a handler along the path that the hypotheses at hand select. *)
Ltac walk :=
  repeat first
    [ progress cbv beta iota zeta delta [negb orb]
    | rewrite bind_assoc
    | erewrite contains_Some by eassumption
    | erewrite contains_None by eassumption
    | erewrite getitem_Some by eassumption
    | erewrite getitem_None by eassumption
    | erewrite await_inr by first [eassumption | reflexivity]
    | erewrite await_inl by first [eassumption | reflexivity]
    | erewrite or_raise_Some by first [eassumption | reflexivity]
    | erewrite or_raise_None by first [eassumption | reflexivity]
    | erewrite subscript_Some by eassumption
    | erewrite subscript_None by eassumption
    | rewrite find_one_bind
    | rewrite update_one_bind
    | match goal with H : isnumeric _ = _ |- _ => rewrite H end
    | match goal with H : (_ =? _) = _ |- _ => rewrite H end ].

Section Properties.
Context {U : Unicode}.
Variable environ : gmap str str.
Variable parse_url : str → str.
Variable get : aiohttp.Client.

(** ** The landing page *)

(** C8: whatever the environment, the provider and the request, the root
    endpoint answers with a 302 redirect to the organization's page, and
    leaves the collection alone. *)
Theorem root_redirects_to_organization
    (request : sanic.Request) (c : Collection) :
  ∃ response,
    route environ parse_url get Root request c = (inr response, c)
    ∧ sanic.status response = 302
    ∧ sanic.location response = Some (py "https://github.com/ChomusukeBot")
    ∧ sanic.set_cookies response = ∅.
Proof. eexists. split; [reflexivity |]. by repeat split. Qed.

(** ** Starting the flow *)

Lemma github_unconfigured request c :
  configured environ = false →
  github environ parse_url request c
  = (inr (sanic.text (py "GitHub is not supported at this time.") 503), c).
Proof.
  intros H. unfold github. by rewrite (unconfigured_guard _ H).
Qed.

(** C7: [/github] answers 503 when the credentials are not configured and
    400 when they are but the query has no [id]; with both it answers with
    a 301 redirect to the provider's authorize URL, built from the client
    id and the callback URL, and sets the cookie [id] to the first value of
    the query's [id]. *)
Theorem github_starts_the_flow (request : sanic.Request) (c : Collection) :
  (configured environ = false →
   route environ parse_url get Github request c
   = (inr (sanic.text (py "GitHub is not supported at this time.") 503), c))
  ∧ (configured environ = true →
     sanic.args request !! py "id" = None →
     route environ parse_url get Github request c
     = (inr (sanic.text (py "The Discord ID was not specified") 400), c))
  ∧ (∀ client_id id,
       configured environ = true →
       environ !! py "GITHUB_CLIENT" = Some client_id →
       sanic.args request !! py "id" = Some id →
       ∃ response,
         route environ parse_url get Github request c = (inr response, c)
         ∧ sanic.status response = 301
         ∧ sanic.location response
           = Some (py "https://github.com/login/oauth/authorize?client_id="
                   ++ client_id ++ py "&redirect_uri="
                   ++ (parse_url (sanic.url request)
                       ++ py "/github/callback"))
         ∧ sanic.set_cookies response = {[ py "id" := first id ]}).
Proof.
  split; [apply github_unconfigured |]. split.
  - intros (client_id & client_secret & Hclient & Hsecret)%configured_inv Hid.
    simpl. unfold github. by walk.
  - intros client_id id (? & client_secret & Hclient' & Hsecret)%configured_inv
      Hclient Hid.
    simpl. unfold github. walk.
    eexists. split; [reflexivity |]. simpl. by repeat split.
Qed.

(** ** Completing the flow: the four checks *)

Lemma callback_unconfigured request c :
  configured environ = false →
  github_callback environ get request c
  = (inr (sanic.text (py "GitHub is not supported at this time.") 503), c).
Proof.
  intros H. unfold github_callback. by rewrite (unconfigured_guard _ H).
Qed.

Lemma callback_without_cookie request c :
  configured environ = true →
  sanic.cookies request !! py "id" = None →
  github_callback environ get request c
  = (inr (sanic.text (py "No Discord ID present on cookies.") 400), c).
Proof.
  intros (client_id & client_secret & Hclient & Hsecret)%configured_inv Hid.
  unfold github_callback. by walk.
Qed.

Lemma callback_cookie_not_numeric request c cookie :
  configured environ = true →
  sanic.cookies request !! py "id" = Some cookie →
  isnumeric cookie = false →
  github_callback environ get request c
  = (inr (sanic.text (py "The Discord ID is not numeric.") 400), c).
Proof.
  intros (client_id & client_secret & Hclient & Hsecret)%configured_inv
    Hid Hnum.
  unfold github_callback. by walk.
Qed.

Lemma callback_without_code request c cookie :
  configured environ = true →
  sanic.cookies request !! py "id" = Some cookie →
  isnumeric cookie = true →
  sanic.args request !! py "code" = None →
  github_callback environ get request c
  = (inr (sanic.text (py "There is no GitHub code.") 400), c).
Proof.
  intros (client_id & client_secret & Hclient & Hsecret)%configured_inv
    Hid Hnum Hcode.
  unfold github_callback. by walk.
Qed.

(** C2: the callback checks, in this order, that the credentials are
    configured (else 503), that the cookie [id] is there (else 400), that
    it is numeric (else 400) and that the query has a [code] (else 400);
    the first check that fails decides the response, whatever the later
    ones would say, and the four failures are four different responses.
    Without credentials [/github] answers 503 as well. *)
Theorem callback_checks_in_order (request : sanic.Request) (c : Collection) :
  (configured environ = false →
   route environ parse_url get GithubCallback request c
   = (inr (sanic.text (py "GitHub is not supported at this time.") 503), c)
   ∧ route environ parse_url get Github request c
     = (inr (sanic.text (py "GitHub is not supported at this time.") 503), c))
  ∧ (configured environ = true →
     sanic.cookies request !! py "id" = None →
     route environ parse_url get GithubCallback request c
     = (inr (sanic.text (py "No Discord ID present on cookies.") 400), c))
  ∧ (∀ cookie,
       configured environ = true →
       sanic.cookies request !! py "id" = Some cookie →
       isnumeric cookie = false →
       route environ parse_url get GithubCallback request c
       = (inr (sanic.text (py "The Discord ID is not numeric.") 400), c))
  ∧ (∀ cookie,
       configured environ = true →
       sanic.cookies request !! py "id" = Some cookie →
       isnumeric cookie = true →
       sanic.args request !! py "code" = None →
       route environ parse_url get GithubCallback request c
       = (inr (sanic.text (py "There is no GitHub code.") 400), c))
  ∧ NoDup [sanic.text (py "GitHub is not supported at this time.") 503;
           sanic.text (py "No Discord ID present on cookies.") 400;
           sanic.text (py "The Discord ID is not numeric.") 400;
           sanic.text (py "There is no GitHub code.") 400].
Proof.
  split; [| split; [| split; [| split]]].
  - intros H. split; [by apply callback_unconfigured |].
    by apply github_unconfigured.
  - apply callback_without_cookie.
  - intros cookie. apply callback_cookie_not_numeric.
  - intros cookie. apply callback_without_code.
  - repeat (apply NoDup_cons; split;
            [rewrite ?elem_of_cons, elem_of_nil; intros H;
             repeat (destruct H as [H | H]; [by vm_compute in H |]); done |]).
    apply NoDup_nil_2.
Qed.
(** ** Completing the flow: the exchange *)

Section Accepted.
(** A request that passes the four checks *)
Variable request : sanic.Request.
Variables client_id client_secret cookie : str.
Variable code : values.
Hypothesis Hclient : environ !! py "GITHUB_CLIENT" = Some client_id.
Hypothesis Hsecret : environ !! py "GITHUB_SECRET" = Some client_secret.
Hypothesis Hcookie : sanic.cookies request !! py "id" = Some cookie.
Hypothesis Hnumeric : isnumeric cookie = true.
Hypothesis Hcode : sanic.args request !! py "code" = Some code.

(** The decoded body of the provider's answer to the exchange *)
Let params : gmap str values :=
  parse_qs
    (aiohttp.text
       (get (CODE_GITHUB client_id client_secret (first code)) [])).

(** The provider's answer to the profile request made with a token *)
Let profile (access_token : values) : aiohttp.ClientResponse :=
  get USER_GITHUB
    [(py "Authorization", py "token " ++ first access_token);
     (py "User-Agent", py "Chomusuke (+https://github.com/ChomusukeBot)")].

(** C3, as the code has it: when the decoded body of the exchange has
    an [error] and an [error_description], the callback answers 400 with
    the first [error_description] as its body, and the collection sees
    no operation. *)
Theorem exchange_rejected (c : Collection) (error description : values) :
  params !! py "error" = Some error →
  params !! py "error_description" = Some description →
  github_callback environ get request c
  = (inr (sanic.text (first description) 400), c).
Proof.
  unfold params. intros Herror Hdescription.
  unfold github_callback. by walk.
Qed.

(** C5: when the exchange yields a token and the profile request is
    answered with a status other than 200, the callback answers with
    that very status, and the collection sees no operation. *)
Theorem profile_failure_forwarded (c : Collection) (access_token : values) :
  params !! py "error" = None →
  params !! py "access_token" = Some access_token →
  aiohttp.status (profile access_token) ≠ 200 →
  github_callback environ get request c
  = (inr (sanic.text
            (py "An error has ocurred while fetching your data.")
            (aiohttp.status (profile access_token))),
     c).
Proof.
  unfold params, profile. intros Herror Htoken Hstatus%Z.eqb_neq.
  unfold github_callback. by walk.
Qed.

(** C10: three answers of the provider that the callback does not
    handle, each ending in an uncaught [KeyError]: an exchange body
    with neither [error] nor [access_token]; one with [error] but no
    [error_description]; a profile answered with 200 whose JSON object
    has no [login] (here the collection has been read, not written). *)
Theorem unexpected_answers_raise (c : Collection) :
  (params !! py "error" = None →
   params !! py "access_token" = None →
   github_callback environ get request c
   = (inl (KeyError (py "access_token")), c))
  ∧ (∀ error,
       params !! py "error" = Some error →
       params !! py "error_description" = None →
       github_callback environ get request c
       = (inl (KeyError (py "error_description")), c))
  ∧ (∀ access_token d id,
       params !! py "error" = None →
       params !! py "access_token" = Some access_token →
       aiohttp.status (profile access_token) = 200 →
       aiohttp.json (profile access_token) = inr (VDict d) →
       assoc (py "login") d = None →
       int cookie = Some id →
       github_callback environ get request c
       = (inl (KeyError (py "login")), served (FindOne id) c)).
Proof.
  unfold params, profile. split; [| split].
  - intros Herror Htoken. unfold github_callback. by walk.
  - intros error Herror Hdescription. unfold github_callback. by walk.
  - intros access_token d id Herror Htoken Hstatus%Z.eqb_eq Hjson Hlogin Hid.
    unfold github_callback. walk.
    destruct (find (has_id id) (documents c)); by walk.
Qed.

(** A cookie that the guard lets through and [int] refuses ends the
    callback in a [ValueError], once the provider has played its part. *)
Lemma callback_cookie_not_integer (c : Collection) (access_token : values) json :
  params !! py "error" = None →
  params !! py "access_token" = Some access_token →
  aiohttp.status (profile access_token) = 200 →
  aiohttp.json (profile access_token) = inr json →
  int cookie = None →
  github_callback environ get request c = (inl ValueError, c).
Proof.
  unfold params, profile. intros Herror Htoken Hstatus%Z.eqb_eq Hjson Hid.
  unfold github_callback. by walk.
Qed.

(** The callback links the account when the provider plays its part. *)
Lemma callback_links (c : Collection) (access_token : values) d id login :
  params !! py "error" = None →
  params !! py "access_token" = Some access_token →
  aiohttp.status (profile access_token) = 200 →
  aiohttp.json (profile access_token) = inr (VDict d) →
  assoc (py "login") d = Some login →
  int cookie = Some id →
  github_callback environ get request c
  = (inr (sanic.text
            (py "Done! The GitHub account " ++ str_of login
             ++ py " is now linked with Discord.") 200),
     match find (has_id id) (documents c) with
     | Some _ =>
         {| documents := set_first id (py "github") login (documents c);
            operations := operations c ++ [FindOne id; UpdateOne id] |}
     | None =>
         {| documents :=
              documents c
              ++ [{| _id := id; fields := {[ py "github" := login ]} |}];
            operations := operations c ++ [FindOne id; InsertOne id] |}
     end).
Proof.
  unfold params, profile.
  intros Herror Htoken Hstatus%Z.eqb_eq Hjson Hlogin Hid.
  unfold github_callback. walk.
  destruct (find (has_id id) (documents c)) as [found|] eqn:Hfound.
  - walk. unfold served. cbn. by rewrite <- app_assoc.
  - walk. rewrite insert_one_bind by done. walk.
    unfold served. cbn. by rewrite <- app_assoc.
Qed.
End Accepted.
(** ** Completing the flow: every outcome *)

(** A callback ends in one of three ways: it is turned down before the
    collection is touched; it raises after the lookup; or it links the
    account. *)
Lemma callback_outcome request c r c' :
  github_callback environ get request c = (r, c') →
  (c' = c ∧ ∀ response, r = inr response → sanic.status response ≠ 200)
  ∨ (∃ id e, c' = served (FindOne id) c ∧ r = inl e)
  ∨ (∃ cookie id headers d login,
       sanic.cookies request !! py "id" = Some cookie
       ∧ int cookie = Some id
       ∧ aiohttp.json (get USER_GITHUB headers) = inr (VDict d)
       ∧ assoc (py "login") d = Some login
       ∧ r = inr (done_response login)
       ∧ c' = match find (has_id id) (documents c) with
              | Some _ =>
                  {| documents :=
                       set_first id (py "github") login (documents c);
                     operations :=
                       operations c ++ [FindOne id; UpdateOne id] |}
              | None =>
                  {| documents :=
                       documents c
                       ++ [{| _id := id;
                              fields := {[ py "github" := login ]} |}];
                     operations :=
                       operations c ++ [FindOne id; InsertOne id] |}
              end).
Proof.
  intros H.
  assert (∀ body status,
            (r, c') = (inr (sanic.text body status), c) → status ≠ 200 →
            c' = c ∧ ∀ response, r = inr response → sanic.status response ≠ 200)
    as Hturned_down.
  { intros body status [= -> ->] Hstatus. split; [done |].
    by intros response [= <-]. }
  assert (∀ e, (r, c') = (inl e, c) →
            c' = c ∧ ∀ response, r = inr response → sanic.status response ≠ 200)
    as Hraised.
  { intros e [= -> ->]. split; [done |]. by intros response [=]. }
  destruct (configured environ) eqn:Hcfg;
    [| rewrite callback_unconfigured in H by done; left; by eapply Hturned_down].
  destruct (sanic.cookies request !! py "id") as [cookie|] eqn:Hcookie;
    [| rewrite callback_without_cookie in H by done;
       left; by eapply Hturned_down].
  destruct (isnumeric cookie) eqn:Hnumeric;
    [| erewrite callback_cookie_not_numeric in H by done;
       left; by eapply Hturned_down].
  destruct (sanic.args request !! py "code") as [code|] eqn:Hcode;
    [| erewrite callback_without_code in H by done;
       left; by eapply Hturned_down].
  apply configured_inv in Hcfg as (client_id & client_secret & Hclient & Hsecret).
  pose proof H as Hrun.
  revert H. unfold github_callback. walk.
  set (params := parse_qs _).
  destruct (params !! py "error") as [error|] eqn:Herror.
  { destruct (params !! py "error_description")
      as [description|] eqn:Hdescription; walk; intros H; left.
    - by eapply Hturned_down.
    - by eapply Hraised. }
  destruct (params !! py "access_token") as [access_token|] eqn:Htoken;
    walk; [| intros H; left; by eapply Hraised].
  destruct (aiohttp.status _ =? 200) eqn:Hstatus; walk;
    [| intros H; left; eapply Hturned_down; [done |]; by apply Z.eqb_neq].
  destruct (aiohttp.json _) as [e|json] eqn:Hjson; walk;
    [intros H; left; by eapply Hraised |].
  destruct (int cookie) as [id|] eqn:Hid; walk;
    [| intros H; left; by eapply Hraised].
  destruct json as [|b|n|s|l|d];
    try (destruct (find (has_id id) (documents c)); walk;
         rewrite subscript_TypeError by done;
         intros [= <- <-]; right; left; by eauto).
  destruct (assoc (py "login") d) as [login|] eqn:Hlogin.
  - intros _. right. right.
    exists cookie, id. eexists. exists d, login.
    split; [done |]. split; [done |]. split; [apply Hjson |].
    split; [done |].
    apply Z.eqb_eq in Hstatus.
    rewrite (callback_links request _ _ _ _
               Hclient Hsecret Hcookie Hnumeric Hcode c
               access_token d id login Herror Htoken Hstatus Hjson Hlogin Hid)
      in Hrun.
    by injection Hrun as <- <-.
  - destruct (find (has_id id) (documents c)); walk;
      intros [= <- <-]; right; left; by eauto.
Qed.
(** C4, as the code has it: a callback whose cookie [id] is there but
    not numeric is answered 400 when the credentials are configured and
    503 when they are not; either way the collection sees no operation. *)
Theorem nonnumeric_cookie_turned_down
    (request : sanic.Request) (c : Collection) (cookie : str) :
  sanic.cookies request !! py "id" = Some cookie →
  isnumeric cookie = false →
  ∃ response,
    github_callback environ get request c = (inr response, c)
    ∧ sanic.status response = if configured environ then 400 else 503.
Proof.
  intros Hcookie Hnumeric. destruct (configured environ) eqn:Hcfg.
  - erewrite callback_cookie_not_numeric by done. by eexists.
  - rewrite callback_unconfigured by done. by eexists.
Qed.

(** ** The collection *)

Lemma home_reads_nothing request c : snd (home request c) = c.
Proof. reflexivity. Qed.

Lemma github_reads_nothing request c :
  snd (github environ parse_url request c) = c.
Proof.
  unfold github, contains, getitem, mbind, io_bind, mret, io_ret, raise.
  by repeat case_match.
Qed.


End Properties.


Section Linking.
Context {U : Unicode}.
Variable environ : gmap str str.
Variable parse_url : str → str.
Variable get : aiohttp.Client.


(** C9: a callback answered 200 leaves every document of the collection
    at its place and with its key, and changes no field of it other than
    the [github] field of the documents keyed by the platform user id. *)
Theorem relink_changes_github_only
    (request : sanic.Request) (c c' : Collection)
    (response : sanic.HTTPResponse) :
  github_callback environ get request c = (inr response, c') →
  sanic.status response = 200 →
  ∃ cookie id,
    sanic.cookies request !! py "id" = Some cookie
    ∧ int cookie = Some id
    ∧ ∀ i d,
        documents c !! i = Some d →
        ∃ d', documents c' !! i = Some d'
              ∧ _id d' = _id d
              ∧ ∀ k, _id d ≠ id ∨ k ≠ py "github" →
                     fields d' !! k = fields d !! k.
Proof.
  intros H Hstatus.
  apply callback_outcome in H
    as [[_ H] | [(id & e & _ & [=])
                | (cookie & id & headers & profile & login
                   & Hcookie & Hid & _ & _ & _ & ->)]];
    [by destruct (H response) |].
  exists cookie, id. repeat (split; [done |]). intros i d Hi.
  destruct (find (has_id id) (documents c)) as [found|] eqn:Hfound; simpl.
  - apply find_has_id_Some in Hfound as (i0 & Hi0 & Hfid & Hset).
    rewrite Hset. destruct (decide (i = i0)) as [-> | Hne].
    + assert (d = found) as -> by congruence.
      eexists. split; [apply list_lookup_insert_eq; by eapply lookup_lt_Some |].
      split; [done |]. simpl. intros k [Hk | Hk]; [done |].
      by apply lookup_insert_ne.
    + exists d. by rewrite list_lookup_insert_ne.
  - exists d. by rewrite lookup_app_l by (by eapply lookup_lt_Some).
Qed.
End Linking.

(** * Further properties of the handlers *)

Section Paths.
Context {U : Unicode}.
Variable environ : gmap str str.
Variable get : aiohttp.Client.

Lemma links_run request id login c :
  links environ get request id login →
  github_callback environ get request c
  = (inr (done_response login),
     match find (has_id id) (documents c) with
     | Some _ =>
         {| documents := set_first id (py "github") login (documents c);
            operations := operations c ++ [FindOne id; UpdateOne id] |}
     | None =>
         {| documents :=
              documents c
              ++ [{| _id := id; fields := {[ py "github" := login ]} |}];
            operations := operations c ++ [FindOne id; InsertOne id] |}
     end).
Proof.
  intros (client_id & client_secret & cookie & code & access_token & profile
          & Hclient & Hsecret & Hcookie & Hnumeric & Hcode & Herror & Htoken
          & Hstatus & Hjson & Hlogin & Hid).
  by eapply callback_links.
Qed.

Lemma links_cookie request id login :
  links environ get request id login →
  ∃ cookie,
    sanic.cookies request !! py "id" = Some cookie
    ∧ isnumeric cookie = true ∧ int cookie = Some id.
Proof.
  intros (client_id & client_secret & cookie & code & access_token & profile
          & Hclient & Hsecret & Hcookie & Hnumeric & Hcode & Herror & Htoken
          & Hstatus & Hjson & Hlogin & Hid).
  by exists cookie.
Qed.

(** Every way a callback can end: turned down with a response; raising
    before the collection is touched; raising after the lookup; linking. *)
Lemma callback_paths request c r c' :
  github_callback environ get request c = (r, c') →
  (c' = c
   ∧ ∃ body status,
       r = inr (sanic.text body status)
       ∧ (status = 503 ∨ status = 400
          ∨ ∃ headers,
              status = aiohttp.status (get USER_GITHUB headers)
              ∧ status ≠ 200))
  ∨ (c' = c
     ∧ ∃ e,
         r = inl e
         ∧ (e = KeyError (py "error_description")
            ∨ e = KeyError (py "access_token")
            ∨ (e = ValueError
               ∧ ∃ cookie,
                   sanic.cookies request !! py "id" = Some cookie
                   ∧ isnumeric cookie = true ∧ int cookie = None)
            ∨ ∃ headers, aiohttp.json (get USER_GITHUB headers) = inl e))
  ∨ (∃ id e,
       c' = served (FindOne id) c ∧ r = inl e
       ∧ (e = KeyError (py "login") ∨ e = TypeError))
  ∨ (∃ id login,
       links environ get request id login
       ∧ r = inr (done_response login)
       ∧ c' = match find (has_id id) (documents c) with
              | Some _ =>
                  {| documents :=
                       set_first id (py "github") login (documents c);
                     operations :=
                       operations c ++ [FindOne id; UpdateOne id] |}
              | None =>
                  {| documents :=
                       documents c
                       ++ [{| _id := id;
                              fields := {[ py "github" := login ]} |}];
                     operations :=
                       operations c ++ [FindOne id; InsertOne id] |}
              end).
Proof.
  intros H.
  assert (∀ body status,
            (r, c') = (inr (sanic.text body status), c) →
            status = 503 ∨ status = 400 →
            c' = c
            ∧ ∃ body status,
                r = inr (sanic.text body status)
                ∧ (status = 503 ∨ status = 400
                   ∨ ∃ headers,
                       status = aiohttp.status (get USER_GITHUB headers)
                       ∧ status ≠ 200))
    as Hturned_down.
  { intros body status [= -> ->] Hstatus. split; [done |].
    exists body, status. split; [done |]. tauto. }
  destruct (configured environ) eqn:Hcfg;
    [| rewrite callback_unconfigured in H by done;
       left; eapply Hturned_down; eauto].
  destruct (sanic.cookies request !! py "id") as [cookie|] eqn:Hcookie;
    [| rewrite callback_without_cookie in H by done;
       left; eapply Hturned_down; eauto].
  destruct (isnumeric cookie) eqn:Hnumeric;
    [| erewrite callback_cookie_not_numeric in H by done;
       left; eapply Hturned_down; eauto].
  destruct (sanic.args request !! py "code") as [code|] eqn:Hcode;
    [| erewrite callback_without_code in H by done;
       left; eapply Hturned_down; eauto].
  apply configured_inv in Hcfg as (client_id & client_secret & Hclient & Hsecret).
  pose proof H as Hrun.
  revert H. unfold github_callback. walk.
  set (params := parse_qs _).
  destruct (params !! py "error") as [error|] eqn:Herror.
  { destruct (params !! py "error_description")
      as [description|] eqn:Hdescription; walk; intros H.
    - left. eapply Hturned_down; eauto.
    - injection H as <- <-. right. left. split; [done |]. eauto 10. }
  destruct (params !! py "access_token") as [access_token|] eqn:Htoken;
    walk; [| intros [= <- <-]; right; left; split; [done |]; eauto 10].
  destruct (aiohttp.status _ =? 200) eqn:Hstatus; walk.
  2: { intros [= <- <-]. left. split; [done |]. do 2 eexists.
       split; [reflexivity |]. right. right. eexists.
       split; [reflexivity |]. by apply Z.eqb_neq. }
  destruct (aiohttp.json _) as [e|json] eqn:Hjson; walk;
    [intros [= <- <-]; right; left; split; [done |]; eauto 10 |].
  destruct (int cookie) as [id|] eqn:Hid; walk;
    [| intros [= <- <-]; right; left; split; [done |]; eauto 10].
  destruct json as [|b|n|s|l|d];
    try (destruct (find (has_id id) (documents c)); walk;
         rewrite subscript_TypeError by done;
         intros [= <- <-]; right; right; left; by eauto 10).
  destruct (assoc (py "login") d) as [login|] eqn:Hlogin.
  - intros _. right. right. right. exists id, login.
    apply Z.eqb_eq in Hstatus.
    assert (links environ get request id login) as Hlinks.
    { exists client_id, client_secret, cookie, code, access_token, d.
      repeat (split; [done |]). done. }
    split; [done |]. rewrite (links_run _ _ _ c Hlinks) in Hrun.
    by injection Hrun as <- <-.
  - destruct (find (has_id id) (documents c)); walk;
      intros [= <- <-]; right; right; left; by eauto 10.
Qed.
End Paths.

(** ** The store, once more *)

Lemma find_set_first id k v docs d :
  find (has_id id) docs = Some d →
  find (has_id id) (set_first id k v docs)
  = Some {| _id := _id d; fields := <[k := v]> (fields d) |}.
Proof.
  induction docs as [|d0 docs IH]; simpl; [done |].
  destruct (has_id id d0) eqn:Hd; simpl.
  - intros [= ->]. unfold has_id in *. simpl. by rewrite Hd.
  - intros H. rewrite Hd. auto.
Qed.

Lemma find_app_new id docs d :
  find (has_id id) docs = None → _id d = id →
  find (has_id id) (docs ++ [d]) = Some d.
Proof.
  intros Hnone Hd. induction docs as [|d0 docs IH]; simpl in *.
  - by apply has_id_true in Hd as ->.
  - destruct (has_id id d0); [done | auto].
Qed.

Lemma set_first_again id k v docs :
  set_first id k v (set_first id k v docs) = set_first id k v docs.
Proof.
  induction docs as [|d docs IH]; simpl; [done |].
  destruct (has_id id d) eqn:Hd; simpl.
  - unfold has_id in *. simpl. by rewrite Hd, insert_insert_eq.
  - by rewrite Hd, IH.
Qed.

Lemma set_first_new id k v docs :
  find (has_id id) docs = None →
  set_first id k v (docs ++ [{| _id := id; fields := {[ k := v ]} |}])
  = docs ++ [{| _id := id; fields := {[ k := v ]} |}].
Proof.
  induction docs as [|d docs IH]; simpl.
  - intros _. unfold has_id. simpl. by rewrite Z.eqb_refl, insert_singleton_eq.
  - destruct (has_id id d); [done |]. intros H. by rewrite IH.
Qed.

Lemma set_first_length id k v docs :
  length (set_first id k v docs) = length docs.
Proof.
  rewrite <- (length_fmap _id (set_first id k v docs)), set_first_ids.
  apply length_fmap.
Qed.

(** What the upsert has written is what a lookup finds. *)
Lemma upserted_is_found id login docs :
  ∃ d,
    find (has_id id)
      (match find (has_id id) docs with
       | Some _ => set_first id (py "github") login docs
       | None =>
           docs ++ [{| _id := id; fields := {[ py "github" := login ]} |}]
       end) = Some d
    ∧ fields d !! py "github" = Some login.
Proof.
  destruct (find (has_id id) docs) as [found|] eqn:Hfound; eexists.
  - split; [by apply find_set_first |]. simpl. apply lookup_insert_eq.
  - split; [by apply find_app_new |]. simpl. apply lookup_singleton_eq.
Qed.

Lemma linked_is_found id login c :
  ∃ d,
    find (has_id id)
      (documents
         match find (has_id id) (documents c) with
         | Some _ =>
             {| documents := set_first id (py "github") login (documents c);
                operations := operations c ++ [FindOne id; UpdateOne id] |}
         | None =>
             {| documents :=
                  documents c
                  ++ [{| _id := id; fields := {[ py "github" := login ]} |}];
                operations := operations c ++ [FindOne id; InsertOne id] |}
         end) = Some d
    ∧ fields d !! py "github" = Some login.
Proof.
  destruct (upserted_is_found id login (documents c)) as (d & Hfound & Hd).
  exists d. split; [| done]. revert Hfound.
  by destruct (find (has_id id) (documents c)).
Qed.


Section Further.
Context {U : Unicode}.
Variable environ : gmap str str.
Variable get : aiohttp.Client.

(** ** What a callback leaves behind *)

(** X1: a callback that does not answer 200, whether it answers something
    else or raises, leaves the documents as they were; the collection has
    seen nothing, or the one lookup. *)
Theorem failed_callback_writes_nothing
    (request : sanic.Request) (c c' : Collection)
    (r : result sanic.HTTPResponse) :
  github_callback environ get request c = (r, c') →
  (∀ response, r = inr response → sanic.status response ≠ 200) →
  documents c' = documents c
  ∧ (operations c' = operations c
     ∨ ∃ id, operations c' = operations c ++ [FindOne id]).
Proof.
  intros H Hfailed.
  apply callback_paths in H
    as [[-> _] | [[-> _] | [(id & e & -> & _)
                            | (id & login & _ & -> & _)]]]; eauto.
  by destruct (Hfailed _ eq_refl).
Qed.

(** X2: a callback that answers 200 has read the collection once and then
    written it once, under the same key: an update that keeps the number
    of documents when the key was there, an insertion that adds one when it
    was not. *)
Theorem callback_reads_then_writes
    (request : sanic.Request) (c c' : Collection)
    (response : sanic.HTTPResponse) :
  github_callback environ get request c = (inr response, c') →
  sanic.status response = 200 →
  ∃ id,
    (is_Some (find (has_id id) (documents c))
     ∧ operations c' = operations c ++ [FindOne id; UpdateOne id]
     ∧ length (documents c') = length (documents c))
    ∨ (find (has_id id) (documents c) = None
       ∧ operations c' = operations c ++ [FindOne id; InsertOne id]
       ∧ length (documents c') = S (length (documents c))).
Proof.
  intros H Hstatus.
  apply callback_paths in H
    as [(_ & body & status & [= ->] & Hst)
       | [(_ & e & [=] & _) | [(id & e & _ & [=] & _)
                               | (id & login & _ & _ & ->)]]].
  - simpl in Hstatus. destruct Hst as [-> | [-> | (headers & _ & Hne)]]; done.
  - exists id. destruct (find (has_id id) (documents c)) eqn:Hfound; simpl.
    + left. by rewrite set_first_length.
    + right. rewrite length_app. simpl. repeat split; try done. lia.
Qed.

(** X3: whatever a callback answers carries neither a redirect nor a
    cookie, and its status is 200, 400, 503 or the status with which the
    provider answered a profile request. *)
Theorem callback_response_shape
    (request : sanic.Request) (c c' : Collection)
    (response : sanic.HTTPResponse) :
  github_callback environ get request c = (inr response, c') →
  sanic.location response = None
  ∧ sanic.set_cookies response = ∅
  ∧ (sanic.status response = 200 ∨ sanic.status response = 400
     ∨ sanic.status response = 503
     ∨ ∃ headers,
         sanic.status response = aiohttp.status (get USER_GITHUB headers)).
Proof.
  intros H.
  apply callback_paths in H
    as [(_ & body & status & [= ->] & Hst)
       | [(_ & e & [=] & _) | [(id & e & _ & [=] & _)
                               | (id & login & _ & [= ->] & _)]]].
  - repeat split; [done.. |]. simpl.
    destruct Hst as [-> | [-> | (headers & -> & _)]]; eauto 10.
  - repeat split; [done.. |]. by left.
Qed.

(** X5: after a callback that answers 200, looking the platform user id up
    finds a document whose [github] field is the login that the response
    names. *)
Theorem linked_account_is_found
    (request : sanic.Request) (c c' : Collection)
    (response : sanic.HTTPResponse) :
  github_callback environ get request c = (inr response, c') →
  sanic.status response = 200 →
  ∃ cookie id login d,
    sanic.cookies request !! py "id" = Some cookie
    ∧ int cookie = Some id
    ∧ response = done_response login
    ∧ find (has_id id) (documents c') = Some d
    ∧ fields d !! py "github" = Some login.
Proof.
  intros H Hstatus.
  apply callback_paths in H
    as [(_ & body & status & [= ->] & Hst)
       | [(_ & e & [=] & _) | [(id & e & _ & [=] & _)
                               | (id & login & Hlinks & [= ->] & ->)]]].
  - simpl in Hstatus. destruct Hst as [-> | [-> | (headers & _ & Hne)]]; done.
  - destruct (links_cookie _ _ _ _ _ Hlinks) as (cookie & Hcookie & _ & Hid).
    destruct (linked_is_found id login c) as (d & Hfound & Hd).
    by exists cookie, id, login, d.
Qed.

(** X6: the upsert is idempotent.  Replaying a request that was answered
    200, with the provider answering as before, is answered the same and
    leaves the documents as the first run left them. *)
Theorem replay_changes_nothing
    (request : sanic.Request) (c c' : Collection)
    (response : sanic.HTTPResponse) :
  github_callback environ get request c = (inr response, c') →
  sanic.status response = 200 →
  ∃ c'',
    github_callback environ get request c' = (inr response, c'')
    ∧ documents c'' = documents c'.
Proof.
  intros H Hstatus.
  apply callback_paths in H
    as [(_ & body & status & [= ->] & Hst)
       | [(_ & e & [=] & _) | [(id & e & _ & [=] & _)
                               | (id & login & Hlinks & [= ->] & ->)]]].
  - simpl in Hstatus. destruct Hst as [-> | [-> | (headers & _ & Hne)]]; done.
  - eexists. split; [by apply links_run |].
    destruct (find (has_id id) (documents c)) as [found|] eqn:Hfound; simpl.
    + erewrite find_set_first by done. simpl. apply set_first_again.
    + rewrite find_app_new by done. simpl. by apply set_first_new.
Qed.
End Further.

Section Cookie.
Context {U : Unicode}.
Variable environ : gmap str str.
Variable get : aiohttp.Client.

(** ** The cookie *)


(** X8: an empty cookie [id] is turned down as not numeric, whatever the
    character database. *)
Theorem empty_cookie_turned_down (request : sanic.Request) (c : Collection) :
  configured environ = true →
  sanic.cookies request !! py "id" = Some [] →
  github_callback environ get request c
  = (inr (sanic.text (py "The Discord ID is not numeric.") 400), c).
Proof. intros Hcfg Hcookie. by eapply callback_cookie_not_numeric. Qed.

(** X9: of a request the callback reads the cookie [id] and the first
    [code] of the query, and nothing else: two requests that agree on these
    are treated alike. *)
Theorem callback_reads_cookie_and_code_only
    (request request' : sanic.Request) (c : Collection) :
  sanic.cookies request !! py "id" = sanic.cookies request' !! py "id" →
  first <$> sanic.args request !! py "code"
  = first <$> sanic.args request' !! py "code" →
  github_callback environ get request c
  = github_callback environ get request' c.
Proof.
  intros Hcookies Hcodes. unfold github_callback.
  assert (contains (sanic.cookies request) (py "id")
          = contains (sanic.cookies request') (py "id")) as ->
    by (unfold contains; by rewrite Hcookies).
  assert (getitem (sanic.cookies request) (py "id")
          = getitem (sanic.cookies request') (py "id")) as ->
    by (unfold getitem; by rewrite Hcookies).
  destruct (negb (contains environ (py "GITHUB_CLIENT"))
            || negb (contains environ (py "GITHUB_SECRET"))); [done |].
  destruct (sanic.cookies request' !! py "id") as [cookie|] eqn:Hcookie;
    walk; [| done].
  destruct (isnumeric cookie) eqn:Hnumeric; walk; [| done].
  destruct (sanic.args request !! py "code") as [code|] eqn:Hcode,
           (sanic.args request' !! py "code") as [code'|] eqn:Hcode';
    try discriminate; walk; [| done].
  injection Hcodes as Hcodes.
  destruct (environ !! py "GITHUB_CLIENT") as [client_id|] eqn:Hclient;
    walk; [| done].
  destruct (environ !! py "GITHUB_SECRET") as [client_secret|] eqn:Hsecret;
    walk; [| done].
  by rewrite Hcodes.
Qed.

(** X14: the provider is asked nothing before the four checks have
    passed: a request that fails one of them is answered the same whatever
    the provider would say. *)
Theorem checks_precede_the_provider
    (request : sanic.Request) (c : Collection) (get' : aiohttp.Client) :
  configured environ = false
  ∨ sanic.cookies request !! py "id" = None
  ∨ (∃ cookie,
       sanic.cookies request !! py "id" = Some cookie
       ∧ isnumeric cookie = false)
  ∨ sanic.args request !! py "code" = None →
  github_callback environ get request c
  = github_callback environ get' request c.
Proof.
  intros Hfails.
  destruct (configured environ) eqn:Hcfg;
    [| by rewrite !callback_unconfigured].
  destruct (sanic.cookies request !! py "id") as [cookie|] eqn:Hcookie;
    [| by rewrite !callback_without_cookie].
  destruct (isnumeric cookie) eqn:Hnumeric;
    [| by erewrite !callback_cookie_not_numeric].
  destruct Hfails as [[=] | [[=] | [(cookie' & [= <-] & Hnum) | Hcode]]];
    [congruence |].
  by erewrite !callback_without_code.
Qed.
End Cookie.

Section Flow.
Context {U : Unicode}.
Variable environ : gmap str str.
Variable parse_url : str → str.
Variable get : aiohttp.Client.

(** [/github] never raises and never touches the collection. *)
Lemma github_paths request c r c' :
  github environ parse_url request c = (r, c') →
  c' = c
  ∧ (r = inr (sanic.text (py "GitHub is not supported at this time.") 503)
     ∨ r = inr (sanic.text (py "The Discord ID was not specified") 400)
     ∨ ∃ client_id id,
         environ !! py "GITHUB_CLIENT" = Some client_id
         ∧ sanic.args request !! py "id" = Some id
         ∧ r = inr (sanic.set_cookie (py "id") (first id)
                      (sanic.redirect
                         (AUTH_GITHUB client_id
                            (parse_url (sanic.url request)
                             ++ py "/github/callback"))
                         301))).
Proof.
  destruct (configured environ) eqn:Hcfg;
    [| rewrite github_unconfigured by done; intros [= <- <-]; auto].
  apply configured_inv in Hcfg as (client_id & client_secret & Hclient & Hsecret).
  unfold github.
  destruct (sanic.args request !! py "id") as [id|] eqn:Hid; walk;
    intros [= <- <-]; split; eauto 10.
Qed.


(** X13: of a request [/github] reads the first [id] of the query and the
    URL, as far as [parse_url] looks at it, and nothing else. *)
Theorem github_reads_id_and_url_only
    (request request' : sanic.Request) (c : Collection) :
  first <$> sanic.args request !! py "id"
  = first <$> sanic.args request' !! py "id" →
  parse_url (sanic.url request) = parse_url (sanic.url request') →
  github environ parse_url request c = github environ parse_url request' c.
Proof.
  intros Hids Hurl. unfold github.
  destruct (negb (contains environ (py "GITHUB_CLIENT"))
            || negb (contains environ (py "GITHUB_SECRET"))); [done |].
  destruct (sanic.args request !! py "id") as [id|] eqn:Hid,
           (sanic.args request' !! py "id") as [id'|] eqn:Hid';
    try discriminate; walk; [| done].
  injection Hids as Hids.
  destruct (environ !! py "GITHUB_CLIENT") as [client_id|] eqn:Hclient;
    walk; [| done].
  by rewrite Hids, Hurl.
Qed.

(** X10: the two halves of the flow fit together.  When the browser sends
    back the cookies that [/github] has set and the callback answers 200,
    the account is linked under the first [id] of the query that started
    the flow. *)
Theorem flow_links_initiating_id
    (request1 request2 : sanic.Request) (c1 c1' c2 c2' : Collection)
    (response1 response2 : sanic.HTTPResponse) :
  github environ parse_url request1 c1 = (inr response1, c1') →
  sanic.cookies request2 = sanic.set_cookies response1 →
  github_callback environ get request2 c2 = (inr response2, c2') →
  sanic.status response2 = 200 →
  ∃ ids id login d,
    sanic.args request1 !! py "id" = Some ids
    ∧ int (first ids) = Some id
    ∧ response2 = done_response login
    ∧ find (has_id id) (documents c2') = Some d
    ∧ fields d !! py "github" = Some login.
Proof.
  intros H1 Hcookies H2 Hstatus.
  apply callback_paths in H2
    as [(_ & body & status & [= ->] & Hst)
       | [(_ & e & [=] & _) | [(id & e & _ & [=] & _)
                               | (id & login & Hlinks & [= ->] & ->)]]].
  { simpl in Hstatus. by destruct Hst as [-> | [-> | (headers & _ & Hne)]]. }
  destruct (links_cookie _ _ _ _ _ Hlinks) as (cookie & Hcookie & _ & Hid).
  rewrite Hcookies in Hcookie.
  apply github_paths in H1
    as [_ [[= ->] | [[= ->] | (client_id & ids & _ & Hids & [= ->])]]];
    [done.. |].
  simpl in Hcookie. rewrite lookup_insert_eq in Hcookie.
  injection Hcookie as <-.
  destruct (linked_is_found id login c2) as (d & Hfound & Hd).
  by exists ids, id, login, d.
Qed.
End Flow.

(** ** The collection over time *)

Lemma route_never_deletes `{U : Unicode} environ parse_url get e request c :
  _id <$> documents c
  `prefix_of` _id <$> documents (snd (route environ parse_url get e request c)).
Proof.
  destruct e; unfold route.
  - by rewrite home_reads_nothing.
  - by rewrite github_reads_nothing.
  - destruct (github_callback environ get request c) as [r c'] eqn:H.
    apply callback_paths in H
      as [[-> _] | [[-> _] | [(id & e & -> & _)
                              | (id & login & _ & _ & ->)]]]; [done.. |].
    simpl. destruct (find (has_id id) (documents c)); simpl.
    + by rewrite set_first_ids.
    + rewrite fmap_app. by apply prefix_app_r.
Qed.

(** X11: the service never deletes or reorders: whatever requests it
    answers, the keys that the collection held are still there, in the same
    order, before those that were added. *)
Theorem serve_never_deletes `{U : Unicode} (environ : gmap str str)
    (parse_url : str → str)
    (calls : list (endpoint * aiohttp.Client * sanic.Request))
    (c : Collection) :
  _id <$> documents c
  `prefix_of` _id <$> documents (serve environ parse_url calls c).
Proof.
  revert c. induction calls as [|[[e get] request] calls IH]; intros c;
    [done |].
  etrans; [| apply IH]. apply route_never_deletes.
Qed.

(** X12: only the callback touches the collection: answering requests to
    [/] and [/github] leaves it as it was, operations included. *)
Theorem serve_only_callback_writes `{U : Unicode} (environ : gmap str str)
    (parse_url : str → str)
    (calls : list (endpoint * aiohttp.Client * sanic.Request))
    (c : Collection) :
  Forall (λ call, fst (fst call) ≠ GithubCallback) calls →
  serve environ parse_url calls c = c.
Proof.
  revert c. induction calls as [|[[e get] request] calls IH]; intros c Hcalls;
    [done |].
  apply Forall_cons in Hcalls as [He Hcalls]. simpl in He.
  unfold serve. simpl. fold (serve environ parse_url calls).
  destruct e; [| | done]; unfold route.
  - rewrite home_reads_nothing. by apply IH.
  - rewrite github_reads_nothing. by apply IH.
Qed.


(** * The properties at work *)

Section Samples.
#[local] Existing Instance latin1.

(** [/github] without credentials, without [id], and with both *)
Lemma github_starts_the_flow_witness :
  route ∅ base_url (github_knows (py "octocat")) Github
    (github_request (py "123")) empty_collection
  = (inr (sanic.text (py "GitHub is not supported at this time.") 503),
     empty_collection)
  ∧ route credentials base_url (github_knows (py "octocat")) Github
      (callback_request (py "123")) empty_collection
    = (inr (sanic.text (py "The Discord ID was not specified") 400),
       empty_collection)
  ∧ ∃ response,
      route credentials base_url (github_knows (py "octocat")) Github
        (github_request (py "123")) empty_collection
      = (inr response, empty_collection)
      ∧ sanic.status response = 301
      ∧ sanic.location response
        = Some (py "https://github.com/login/oauth/authorize?client_id="
                ++ py "Iv1.8a61f9b3a7aba766" ++ py "&redirect_uri="
                ++ (base_url (sanic.url (github_request (py "123")))
                    ++ py "/github/callback"))
      ∧ sanic.set_cookies response = {[ py "id" := py "123" ]}.
Proof.
  split; [| split].
  - apply (proj1 (github_starts_the_flow ∅ base_url
                    (github_knows (py "octocat"))
                    (github_request (py "123")) empty_collection)).
    vm_compute; reflexivity.
  - apply (proj1 (proj2 (github_starts_the_flow credentials base_url
                           (github_knows (py "octocat"))
                           (callback_request (py "123")) empty_collection)));
      vm_compute; reflexivity.
  - apply (proj2 (proj2 (github_starts_the_flow credentials base_url
                           (github_knows (py "octocat"))
                           (github_request (py "123")) empty_collection))
             (py "Iv1.8a61f9b3a7aba766") (py "123", []));
      vm_compute; reflexivity.
Defined.

(** The four checks of the callback, each failing in its turn *)
Lemma callback_checks_in_order_witness :
  (route ∅ base_url (github_knows (py "octocat")) GithubCallback
     (callback_request_without_code (py "abc")) empty_collection
   = (inr (sanic.text (py "GitHub is not supported at this time.") 503),
      empty_collection)
   ∧ route ∅ base_url (github_knows (py "octocat")) Github
       (callback_request_without_code (py "abc")) empty_collection
     = (inr (sanic.text (py "GitHub is not supported at this time.") 503),
        empty_collection))
  ∧ route credentials base_url (github_knows (py "octocat")) GithubCallback
      (github_request (py "abc")) empty_collection
    = (inr (sanic.text (py "No Discord ID present on cookies.") 400),
       empty_collection)
  ∧ route credentials base_url (github_knows (py "octocat")) GithubCallback
      (callback_request_without_code (py "abc")) empty_collection
    = (inr (sanic.text (py "The Discord ID is not numeric.") 400),
       empty_collection)
  ∧ route credentials base_url (github_knows (py "octocat")) GithubCallback
      (callback_request_without_code (py "123")) empty_collection
    = (inr (sanic.text (py "There is no GitHub code.") 400),
       empty_collection).
Proof.
  split; [| split; [| split]].
  - apply (proj1 (callback_checks_in_order ∅ base_url
                    (github_knows (py "octocat"))
                    (callback_request_without_code (py "abc"))
                    empty_collection)).
    vm_compute; reflexivity.
  - apply (proj1 (proj2 (callback_checks_in_order credentials base_url
                           (github_knows (py "octocat"))
                           (github_request (py "abc")) empty_collection)));
      vm_compute; reflexivity.
  - apply (proj1 (proj2 (proj2
             (callback_checks_in_order credentials base_url
                (github_knows (py "octocat"))
                (callback_request_without_code (py "abc"))
                empty_collection))) (py "abc"));
      vm_compute; reflexivity.
  - apply (proj1 (proj2 (proj2 (proj2
             (callback_checks_in_order credentials base_url
                (github_knows (py "octocat"))
                (callback_request_without_code (py "123"))
                empty_collection)))) (py "123"));
      vm_compute; reflexivity.
Defined.

(** C3 as stated fails: GitHub answers the exchange with an [error] and
    no [error_description]; the callback raises instead of answering
    400. *)
Lemma exchange_rejected_without_description_counterexample :
  is_Some (parse_qs (py "error=access_denied") !! py "error")
  ∧ github_callback credentials (github_refuses (py "error=access_denied"))
      (callback_request (py "123")) empty_collection
    = (inl (KeyError (py "error_description")), empty_collection)
  ∧ ¬ ∃ response c',
        github_callback credentials
          (github_refuses (py "error=access_denied"))
          (callback_request (py "123")) empty_collection
        = (inr response, c')
        ∧ sanic.status response = 400.
Proof.
  assert (github_callback credentials
            (github_refuses (py "error=access_denied"))
            (callback_request (py "123")) empty_collection
          = (inl (KeyError (py "error_description")), empty_collection))
    as H by (vm_compute; reflexivity).
  split; [eexists; vm_compute; reflexivity |]. split; [exact H |].
  intros (response & c' & H' & _). rewrite H in H'. discriminate.
Qed.

(** The user denies access: 400 with GitHub's own words *)
Lemma exchange_rejected_witness :
  github_callback credentials
    (github_refuses
       (py "error=access_denied&error_description=User+denied+access"))
    (callback_request (py "123")) empty_collection
  = (inr (sanic.text (py "User denied access") 400), empty_collection).
Proof.
  apply (exchange_rejected (U := latin1) credentials
           (github_refuses
              (py "error=access_denied&error_description=User+denied+access"))
           (callback_request (py "123"))
           (py "Iv1.8a61f9b3a7aba766") (py "secret") (py "123")
           (py "c0de", [])
           eq_refl eq_refl eq_refl eq_refl eq_refl
           empty_collection
           (py "access_denied", []) (py "User denied access", []));
    vm_compute; reflexivity.
Defined.

(** C4 as stated fails: without credentials the answer to a callback
    with the cookie [abc] is 503. *)
Lemma nonnumeric_cookie_unconfigured_counterexample :
  sanic.cookies (callback_request (py "abc")) !! py "id" = Some (py "abc")
  ∧ isnumeric (py "abc") = false
  ∧ ∃ response,
      github_callback ∅ (github_knows (py "octocat"))
        (callback_request (py "abc")) empty_collection
      = (inr response, empty_collection)
      ∧ sanic.status response = 503
      ∧ sanic.status response ≠ 400.
Proof.
  split; [by vm_compute |]. split; [by vm_compute |].
  eexists. split; [vm_compute; reflexivity |]. by split.
Qed.

(** The cookie [abc] with credentials: 400 *)
Lemma nonnumeric_cookie_turned_down_witness :
  ∃ response,
    github_callback credentials (github_knows (py "octocat"))
      (callback_request (py "abc")) empty_collection
    = (inr response, empty_collection)
    ∧ sanic.status response = 400.
Proof.
  apply (nonnumeric_cookie_turned_down credentials
           (github_knows (py "octocat")) (callback_request (py "abc"))
           empty_collection (py "abc"));
    vm_compute; reflexivity.
Defined.

(** GitHub answers the profile request with 404: so does the service *)
Lemma profile_failure_forwarded_witness :
  github_callback credentials (github_fails 404)
    (callback_request (py "123")) empty_collection
  = (inr (sanic.text (py "An error has ocurred while fetching your data.")
            404),
     empty_collection).
Proof.
  apply (profile_failure_forwarded (U := latin1) credentials
           (github_fails 404) (callback_request (py "123"))
           (py "Iv1.8a61f9b3a7aba766") (py "secret") (py "123")
           (py "c0de", [])
           eq_refl eq_refl eq_refl eq_refl eq_refl
           empty_collection (py "gho_16C7e42F292c6912E7", []));
    vm_compute; (reflexivity || discriminate).
Defined.

(** Three answers that end in a [KeyError] *)
Lemma unexpected_answers_raise_witness :
  github_callback credentials (github_refuses (py "scope=&token_type=bearer"))
    (callback_request (py "123")) empty_collection
  = (inl (KeyError (py "access_token")), empty_collection)
  ∧ github_callback credentials (github_refuses (py "error=access_denied"))
      (callback_request (py "123")) empty_collection
    = (inl (KeyError (py "error_description")), empty_collection)
  ∧ github_callback credentials
      (provider (py "access_token=gho_16C7e42F292c6912E7") 200
         (inr (VDict [(py "message", VStr (py "Bad credentials"))])))
      (callback_request (py "123")) empty_collection
    = (inl (KeyError (py "login")), served (FindOne 123) empty_collection).
Proof.
  split; [| split].
  - apply (proj1 (unexpected_answers_raise (U := latin1) credentials
                    (github_refuses (py "scope=&token_type=bearer"))
                    (callback_request (py "123"))
                    (py "Iv1.8a61f9b3a7aba766") (py "secret") (py "123")
                    (py "c0de", [])
                    eq_refl eq_refl eq_refl eq_refl eq_refl
                    empty_collection));
      vm_compute; reflexivity.
  - apply (proj1 (proj2 (unexpected_answers_raise (U := latin1) credentials
                    (github_refuses (py "error=access_denied"))
                    (callback_request (py "123"))
                    (py "Iv1.8a61f9b3a7aba766") (py "secret") (py "123")
                    (py "c0de", [])
                    eq_refl eq_refl eq_refl eq_refl eq_refl
                    empty_collection)) (py "access_denied", []));
      vm_compute; reflexivity.
  - apply (proj2 (proj2 (unexpected_answers_raise (U := latin1) credentials
                    (provider (py "access_token=gho_16C7e42F292c6912E7") 200
                       (inr (VDict [(py "message",
                                     VStr (py "Bad credentials"))])))
                    (callback_request (py "123"))
                    (py "Iv1.8a61f9b3a7aba766") (py "secret") (py "123")
                    (py "c0de", [])
                    eq_refl eq_refl eq_refl eq_refl eq_refl
                    empty_collection))
             (py "gho_16C7e42F292c6912E7", [])
             [(py "message", VStr (py "Bad credentials"))] 123);
      vm_compute; reflexivity.
Defined.


(** The same user links [octocat2] afterwards: the document is updated and
    no second one appears *)
Example relink_updates_in_place :
  github_callback credentials (github_knows (py "octocat2"))
    (callback_request (py "123")) octocat_linked
  = (inr (done_response (VStr (py "octocat2"))), octocat2_linked).
Proof. vm_compute; reflexivity. Qed.

(** Linking [octocat2] leaves the [prefix] of user 123 and the document
    of user 7 as they were *)
Lemma relink_changes_github_only_witness :
  github_callback credentials (github_knows (py "octocat2"))
    (callback_request (py "123")) stored
  = (inr (done_response (VStr (py "octocat2"))), stored_relinked)
  ∧ ∃ cookie id,
      sanic.cookies (callback_request (py "123")) !! py "id" = Some cookie
      ∧ int cookie = Some id
      ∧ ∀ i d,
          documents stored !! i = Some d →
          ∃ d', documents stored_relinked !! i = Some d'
                ∧ _id d' = _id d
                ∧ ∀ k, _id d ≠ id ∨ k ≠ py "github" →
                       fields d' !! k = fields d !! k.
Proof.
  assert (github_callback credentials (github_knows (py "octocat2"))
            (callback_request (py "123")) stored
          = (inr (done_response (VStr (py "octocat2"))), stored_relinked))
    as H by (vm_compute; reflexivity).
  split; [exact H |].
  exact (relink_changes_github_only (U := latin1) credentials
           (github_knows (py "octocat2")) (callback_request (py "123"))
           stored stored_relinked _ H eq_refl).
Defined.

(** C6: the cookie [½] (U+00BD) is numeric for [str.isnumeric], so the
    guard lets it through, and then [int] refuses it: the callback raises
    [ValueError] where the claim has it answer 400. *)
Theorem numeric_cookie_is_no_integer :
  isnumeric [189%N] = true
  ∧ int [189%N] = None
  ∧ github_callback credentials (github_knows (py "octocat"))
      (callback_request [189%N]) empty_collection
    = (inl ValueError, empty_collection).
Proof. repeat split; vm_compute; reflexivity. Qed.
End Samples.


(** * The further properties at work *)

Section MoreSamples.
#[local] Existing Instance latin1.

(** GitHub answers the profile request with 404: the stored documents
    stay *)
Lemma failed_callback_writes_nothing_witness :
  github_callback credentials (github_fails 404)
    (callback_request (py "123")) stored
  = (inr (sanic.text (py "An error has ocurred while fetching your data.")
            404), stored)
  ∧ documents stored = documents stored
  ∧ (operations stored = operations stored
     ∨ ∃ id, operations stored = operations stored ++ [FindOne id]).
Proof.
  assert (github_callback credentials (github_fails 404)
            (callback_request (py "123")) stored
          = (inr (sanic.text
                    (py "An error has ocurred while fetching your data.")
                    404), stored))
    as H by (vm_compute; reflexivity).
  split; [exact H |].
  apply (failed_callback_writes_nothing (U := latin1) credentials
           (github_fails 404) (callback_request (py "123")) stored stored _ H).
  intros response [= <-]. vm_compute. discriminate.
Defined.

(** The first link of user 123: one read, one insertion, one document
    more *)
Lemma callback_reads_then_writes_witness :
  ∃ id,
    (is_Some (find (has_id id) (documents empty_collection))
     ∧ operations octocat_linked
       = operations empty_collection ++ [FindOne id; UpdateOne id]
     ∧ length (documents octocat_linked)
       = length (documents empty_collection))
    ∨ (find (has_id id) (documents empty_collection) = None
       ∧ operations octocat_linked
         = operations empty_collection ++ [FindOne id; InsertOne id]
       ∧ length (documents octocat_linked)
         = S (length (documents empty_collection))).
Proof.
  apply (callback_reads_then_writes (U := latin1) credentials
           (github_knows (py "octocat")) (callback_request (py "123"))
           empty_collection octocat_linked
           (done_response (VStr (py "octocat"))));
    vm_compute; reflexivity.
Defined.

(** The 404 of the provider, forwarded: no redirect, no cookie *)
Lemma callback_response_shape_witness :
  sanic.location
    (sanic.text (py "An error has ocurred while fetching your data.") 404)
  = None
  ∧ sanic.set_cookies
      (sanic.text (py "An error has ocurred while fetching your data.") 404)
    = ∅
  ∧ (sanic.status
       (sanic.text (py "An error has ocurred while fetching your data.") 404)
     = 200
     ∨ sanic.status
         (sanic.text (py "An error has ocurred while fetching your data.")
            404) = 400
     ∨ sanic.status
         (sanic.text (py "An error has ocurred while fetching your data.")
            404) = 503
     ∨ ∃ headers,
         sanic.status
           (sanic.text (py "An error has ocurred while fetching your data.")
              404)
         = aiohttp.status (github_fails 404 USER_GITHUB headers)).
Proof.
  apply (callback_response_shape (U := latin1) credentials
           (github_fails 404) (callback_request (py "123")) stored stored).
  vm_compute; reflexivity.
Defined.

(** User 123 links [octocat2]: the lookup finds it *)
Lemma linked_account_is_found_witness :
  ∃ cookie id login d,
    sanic.cookies (callback_request (py "123")) !! py "id" = Some cookie
    ∧ int cookie = Some id
    ∧ done_response (VStr (py "octocat2")) = done_response login
    ∧ find (has_id id) (documents stored_relinked) = Some d
    ∧ fields d !! py "github" = Some login.
Proof.
  apply (linked_account_is_found (U := latin1) credentials
           (github_knows (py "octocat2")) (callback_request (py "123"))
           stored stored_relinked);
    vm_compute; reflexivity.
Defined.

(** Linking [octocat] once more changes nothing *)
Lemma replay_changes_nothing_witness :
  ∃ c'',
    github_callback credentials (github_knows (py "octocat"))
      (callback_request (py "123")) octocat_linked
    = (inr (done_response (VStr (py "octocat"))), c'')
    ∧ documents c'' = documents octocat_linked.
Proof.
  apply (replay_changes_nothing (U := latin1) credentials
           (github_knows (py "octocat")) (callback_request (py "123"))
           empty_collection octocat_linked);
    vm_compute; reflexivity.
Defined.


(** The cookie [id=] *)
Lemma empty_cookie_turned_down_witness :
  github_callback credentials (github_knows (py "octocat"))
    (callback_request []) stored
  = (inr (sanic.text (py "The Discord ID is not numeric.") 400), stored).
Proof.
  apply (empty_cookie_turned_down (U := latin1) credentials
           (github_knows (py "octocat")) (callback_request []) stored);
    vm_compute; reflexivity.
Defined.

(** Another URL, a second [code], a [state] and a second cookie make no
    difference *)
Lemma callback_reads_cookie_and_code_only_witness :
  github_callback credentials (github_knows (py "octocat"))
    (callback_request (py "123")) stored
  = github_callback credentials (github_knows (py "octocat"))
      (callback_request_with_more (py "123")) stored.
Proof.
  apply (callback_reads_cookie_and_code_only (U := latin1) credentials
           (github_knows (py "octocat")) (callback_request (py "123"))
           (callback_request_with_more (py "123")) stored);
    vm_compute; reflexivity.
Defined.

(** Without a [code] GitHub is not asked *)
Lemma checks_precede_the_provider_witness :
  github_callback credentials (github_knows (py "octocat"))
    (callback_request_without_code (py "123")) stored
  = github_callback credentials (github_fails 500)
      (callback_request_without_code (py "123")) stored.
Proof.
  apply (checks_precede_the_provider (U := latin1) credentials
           (github_knows (py "octocat"))
           (callback_request_without_code (py "123")) stored
           (github_fails 500)).
  right. right. right. vm_compute; reflexivity.
Defined.

(** [/github?id=123] with and without a cookie *)
Lemma github_reads_id_and_url_only_witness :
  github credentials base_url (github_request (py "123")) stored
  = github credentials base_url
      {| sanic.url := sanic.url (github_request (py "123"));
         sanic.args := sanic.args (github_request (py "123"));
         sanic.cookies := {[ py "id" := py "7" ]} |}
      stored.
Proof.
  apply (github_reads_id_and_url_only credentials base_url
           (github_request (py "123"))
           {| sanic.url := sanic.url (github_request (py "123"));
              sanic.args := sanic.args (github_request (py "123"));
              sanic.cookies := {[ py "id" := py "7" ]} |}
           stored);
    reflexivity.
Defined.

(** [/github?id=123], then the callback with the cookie it has set *)
Lemma flow_links_initiating_id_witness :
  ∃ ids id login d,
    sanic.args (github_request (py "123")) !! py "id" = Some ids
    ∧ int (first ids) = Some id
    ∧ done_response (VStr (py "octocat")) = done_response login
    ∧ find (has_id id) (documents octocat_linked) = Some d
    ∧ fields d !! py "github" = Some login.
Proof.
  apply (flow_links_initiating_id (U := latin1) credentials base_url
           (github_knows (py "octocat"))
           (github_request (py "123")) (callback_request (py "123"))
           empty_collection empty_collection empty_collection octocat_linked
           (sanic.set_cookie (py "id") (py "123")
              (sanic.redirect
                 (AUTH_GITHUB (py "Iv1.8a61f9b3a7aba766")
                    (py "https://axis.example/github/callback"))
                 301)));
    vm_compute; reflexivity.
Defined.

(** A visit to [/] and one to [/github] *)
Lemma serve_only_callback_writes_witness :
  serve credentials base_url
    [(Root, github_knows (py "octocat"), github_request (py "123"));
     (Github, github_knows (py "octocat"), github_request (py "123"))]
    stored
  = stored.
Proof.
  apply (serve_only_callback_writes (U := latin1) credentials base_url).
  repeat constructor; discriminate.
Defined.
End MoreSamples.
